(** * Sealed-bid auction client: shallow embedding of the bid pages

    The development follows [src/pages/AuctionDetail.tsx] (bid admission,
    own-bid lookup, winner lookup, clock check) and the auction listing
    page.  The persistence collaborator is a set of tables held as lists;
    every request of the pages is a function over those tables. *)

From Stdlib Require Import ZArith List String Bool Lia Permutation Sorted.
Import ListNotations.
Open Scope string_scope.
Open Scope Z_scope.

(** ** Storage rows

    Timestamps are milliseconds since the epoch (what [new Date(s)]
    compares by); amounts are whole currency units (the bid input has
    [step=1]). *)

Inductive Status : Type := draft | active | ended | cancelled.

Definition Status_eqb (a b : Status) : bool :=
  match a, b with
  | draft, draft | active, active | ended, ended | cancelled, cancelled => true
  | _, _ => false
  end.

Module products.
Record row : Type := {
  id : string;
  title : string;
  description : string;
  images : option (list string);
  seller_id : string
}.
End products.

Module auctions.
Record row : Type := {
  id : string;
  product_id : string;
  start_price : Z;
  end_time : Z;
  status : Status;
  created_at : Z
}.
End auctions.

Module bids.
Record row : Type := {
  auction_id : string;
  bidder_id : string;
  amount : Z;
  created_at : Z
}.
End bids.

Module profiles.
Record row : Type := {
  id : string;
  full_name : string
}.
End profiles.

(** The tables.  A table's list order is the order in which the storage
    delivers its rows to a query (the source asks for no other order than
    the one written in each query).  [bids_unique] says whether the [bids]
    table declares uniqueness on (auction_id, bidder_id): the table
    declaration is not part of the pages, so it is a parameter of the
    storage. *)
Record Db : Type := {
  tbl_products : list products.row;
  tbl_auctions : list auctions.row;
  tbl_bids : list bids.row;
  tbl_profiles : list profiles.row;
  bids_unique : bool
}.

(** ** The query client *)

Record PostgrestError : Type := {
  code : string;
  message : string;
  (* whether the thrown object passes [instanceof Error] *)
  is_Error : bool
}.

Definition PGRST116 : PostgrestError :=
  {| code := "PGRST116";
     message := "JSON object requested, multiple (or no) rows returned";
     is_Error := false |}.

Definition unique_violation : PostgrestError :=
  {| code := "23505";
     message := "duplicate key value violates unique constraint";
     is_Error := false |}.

(** A response is the pair [{ data, error }]. *)
Definition Response (A : Type) : Type := (option A * option PostgrestError)%type.

(** [.maybeSingle()]: no row is [data = null] without error, one row is
    that row, several rows are an error. *)
Definition maybeSingle {A : Type} (rows : list A) : Response A :=
  match rows with
  | [] => (None, None)
  | [r] => (Some r, None)
  | _ :: _ :: _ => (None, Some PGRST116)
  end.

(** [.single()]: exactly one row, anything else is an error. *)
Definition single {A : Type} (rows : list A) : Response A :=
  match rows with
  | [r] => (Some r, None)
  | _ => (None, Some PGRST116)
  end.

(** A request that the storage cannot serve (network, policy) answers
    with an error and no data; [fault] is that error when there is one. *)
Definition respond {A : Type} (fault : option PostgrestError) (r : Response A)
  : Response A :=
  match fault with
  | Some e => (None, Some e)
  | None => r
  end.

(** [.eq(column, value)] on the two string columns of [bids]. *)
Definition eq_auction_id (id : string) (b : bids.row) : bool :=
  String.eqb (bids.auction_id b) id.

Definition eq_bidder_id (uid : string) (b : bids.row) : bool :=
  String.eqb (bids.bidder_id b) uid.

(** [.order(column, { ascending })]: rows of equal key keep the order in
    which the storage delivered them. *)
Fixpoint insert_by {A : Type} (key : A -> Z) (ascending : bool) (x : A)
  (l : list A) : list A :=
  match l with
  | [] => [x]
  | y :: l' =>
      if (if ascending then key y <? key x else key x <? key y)
      then y :: insert_by key ascending x l'
      else x :: y :: l'
  end.

Fixpoint order {A : Type} (key : A -> Z) (ascending : bool) (l : list A)
  : list A :=
  match l with
  | [] => []
  | x :: l' => insert_by key ascending x (order key ascending l')
  end.

(** [.limit(n)] *)
Definition limit {A : Type} (n : nat) (l : list A) : list A := firstn n l.

(** Embedded resource [bidder:bidder_id (full_name)]: the joined profile,
    or null when there is none. *)
Definition join_bidder (db : Db) (uid : string) : option profiles.row :=
  find (fun p => String.eqb (profiles.id p) uid) (tbl_profiles db).

Definition join_product (db : Db) (pid : string) : option products.row :=
  find (fun p => String.eqb (products.id p) pid) (tbl_products db).

(** ** Component state of the auction detail page *)

Record Product : Type := {
  p_id : string;
  p_title : string;
  p_description : string;
  p_images : list string;
  p_seller_id : string
}.

Record Auction : Type := {
  id : string;
  product : Product;
  start_price : Z;
  end_time : Z;
  status : Status
}.

Record Winner : Type := {
  user_name : string;
  bid_amount : Z
}.

Record PageState : Type := {
  auction : option Auction;
  loading : bool;
  error : option string;
  bidAmount : Z;
  hasUserBid : bool;
  userBidAmount : option Z;
  winner : option Winner;
  showSuccessToast : bool
}.

(** The [useState] initial values. *)
Definition initial_state : PageState :=
  {| auction := None; loading := true; error := None; bidAmount := 0;
     hasUserBid := false; userBidAmount := None; winner := None;
     showSuccessToast := false |}.

Definition setAuction (a : option Auction) (st : PageState) : PageState :=
  {| auction := a; loading := loading st; error := error st;
     bidAmount := bidAmount st; hasUserBid := hasUserBid st;
     userBidAmount := userBidAmount st; winner := winner st;
     showSuccessToast := showSuccessToast st |}.

Definition setLoading (b : bool) (st : PageState) : PageState :=
  {| auction := auction st; loading := b; error := error st;
     bidAmount := bidAmount st; hasUserBid := hasUserBid st;
     userBidAmount := userBidAmount st; winner := winner st;
     showSuccessToast := showSuccessToast st |}.

Definition setError (e : option string) (st : PageState) : PageState :=
  {| auction := auction st; loading := loading st; error := e;
     bidAmount := bidAmount st; hasUserBid := hasUserBid st;
     userBidAmount := userBidAmount st; winner := winner st;
     showSuccessToast := showSuccessToast st |}.

Definition setBidAmount (n : Z) (st : PageState) : PageState :=
  {| auction := auction st; loading := loading st; error := error st;
     bidAmount := n; hasUserBid := hasUserBid st;
     userBidAmount := userBidAmount st; winner := winner st;
     showSuccessToast := showSuccessToast st |}.

Definition setHasUserBid (b : bool) (st : PageState) : PageState :=
  {| auction := auction st; loading := loading st; error := error st;
     bidAmount := bidAmount st; hasUserBid := b;
     userBidAmount := userBidAmount st; winner := winner st;
     showSuccessToast := showSuccessToast st |}.

Definition setUserBidAmount (n : option Z) (st : PageState) : PageState :=
  {| auction := auction st; loading := loading st; error := error st;
     bidAmount := bidAmount st; hasUserBid := hasUserBid st;
     userBidAmount := n; winner := winner st;
     showSuccessToast := showSuccessToast st |}.

Definition setWinner (w : option Winner) (st : PageState) : PageState :=
  {| auction := auction st; loading := loading st; error := error st;
     bidAmount := bidAmount st; hasUserBid := hasUserBid st;
     userBidAmount := userBidAmount st; winner := w;
     showSuccessToast := showSuccessToast st |}.

Definition setShowSuccessToast (b : bool) (st : PageState) : PageState :=
  {| auction := auction st; loading := loading st; error := error st;
     bidAmount := bidAmount st; hasUserBid := hasUserBid st;
     userBidAmount := userBidAmount st; winner := winner st;
     showSuccessToast := b |}.

(** What a [catch] block shows for a thrown value:
    [err instanceof Error ? err.message : fallback]. *)
Definition shown_message (fallback : string) (e : PostgrestError) : string :=
  if is_Error e then message e else fallback.

(** [console.error] calls made by a function, oldest first. *)
Definition Console : Type := list string.

(** ** Clock check *)

(** [const isEnded = auction ? new Date(auction.end_time) < new Date() : false] *)
Definition isEnded (auction : option Auction) (now : Z) : bool :=
  match auction with
  | Some a => end_time a <? now
  | None => false
  end.

(** ** Own-bid lookup *)

(** JavaScript truthiness of the route parameter [id]. *)
Definition truthy_id (id : option string) : option string :=
  match id with
  | Some s => if String.eqb s "" then None else Some s
  | None => None
  end.

(** The query shared by [checkUserBid] and the pre-check of
    [handleBidSubmit]: [from('bids').select('id, amount')
    .eq('auction_id', id).eq('bidder_id', user.id).maybeSingle()]. *)
Definition own_bid_query (db : Db) (id uid : string)
  (fault : option PostgrestError) : Response bids.row :=
  respond fault
    (maybeSingle
       (filter (fun b => eq_auction_id id b && eq_bidder_id uid b)
          (tbl_bids db))).

Definition checkUserBid (user id : option string) (db : Db)
  (fault : option PostgrestError) (st : PageState) : PageState * Console :=
  match user, truthy_id id with
  | Some uid, Some aid =>
      let '(data, error) := own_bid_query db aid uid fault in
      let continue :=
        let st1 := setHasUserBid (match data with Some _ => true | None => false end) st in
        match data with
        | Some d => (setUserBidAmount (Some (bids.amount d)) st1, [])
        | None => (st1, [])
        end in
      match error with
      | Some e =>
          if negb (String.eqb (code e) "PGRST116")
          then (st, ["Error checking user bid:"])
          else continue
      | None => continue
      end
  | _, _ => (st, [])
  end.

(** ** Winner lookup *)

(** [from('bids').select('amount, bidder:bidder_id (full_name)')
    .eq('auction_id', id).order('amount', { ascending: false })
    .limit(1).single()] *)
Definition winner_query (db : Db) (id : string)
  (fault : option PostgrestError)
  : Response (Z * option profiles.row) :=
  respond fault
    (single
       (map (fun b => (bids.amount b, join_bidder db (bids.bidder_id b)))
          (limit 1
             (order bids.amount false
                (filter (eq_auction_id id) (tbl_bids db)))))).

Definition fetchWinnerDetails (id : option string) (db : Db)
  (fault : option PostgrestError) (st : PageState) : PageState * Console :=
  match truthy_id id with
  | None => (st, [])
  | Some aid =>
      let '(data, error) := winner_query db aid fault in
      match error with
      | Some _ => (st, ["Error fetching winner details:"])
      | None =>
          match data with
          | Some (amount, Some bidder) =>
              (setWinner
                 (Some {| user_name := profiles.full_name bidder;
                          bid_amount := amount |}) st, [])
          | _ => (st, [])
          end
      end
  end.

(** ** Auction detail and listing *)

(** [from('auctions').select('id, start_price, end_time, status,
    product:product_id (...)').eq('id', id).single()] *)
Definition auction_query (db : Db) (id : string)
  (fault : option PostgrestError)
  : Response (auctions.row * option products.row) :=
  respond fault
    (single
       (map (fun a => (a, join_product db (auctions.product_id a)))
          (filter (fun a => String.eqb (auctions.id a) id)
             (tbl_auctions db)))).

Definition fetchAuctionDetails (id : string) (db : Db)
  (fault : option PostgrestError) (st : PageState) : PageState :=
  let '(data, error) := auction_query db id fault in
  let st' :=
    match error with
    | Some e => setError (Some (shown_message "Failed to fetch auction details" e)) st
    | None =>
        match data with
        | Some (a, Some p) =>
            setBidAmount (auctions.start_price a)
              (setAuction
                 (Some {| id := auctions.id a;
                          start_price := auctions.start_price a;
                          end_time := auctions.end_time a;
                          status := auctions.status a;
                          product :=
                            {| p_id := products.id p;
                               p_title := products.title p;
                               p_description := products.description p;
                               p_images :=
                                 match products.images p with
                                 | Some l => l
                                 | None => []
                                 end;
                               p_seller_id := products.seller_id p |} |})
                 st)
        | _ => setError (Some "Auction not found") st
        end
    end in
  setLoading false st'.

(** One entry of the listing page: the selected auction columns and the
    embedded product. *)
Record Listed : Type := {
  l_id : string;
  l_start_price : Z;
  l_end_time : Z;
  l_status : Status;
  l_product : option (string * string * string * option (list string))
}.

Record ListState : Type := {
  ls_auctions : list Listed;
  ls_loading : bool;
  ls_error : option string
}.

(** [from('auctions').select(...).eq('status', 'active')
    .order('end_time', { ascending: true })] *)
Definition fetchAuctions (db : Db) (fault : option PostgrestError)
  (ls : ListState) : ListState :=
  match fault with
  | Some e =>
      {| ls_auctions := ls_auctions ls; ls_loading := false;
         ls_error := Some (shown_message "Failed to fetch auctions" e) |}
  | None =>
      {| ls_auctions :=
           map (fun a =>
                  {| l_id := auctions.id a;
                     l_start_price := auctions.start_price a;
                     l_end_time := auctions.end_time a;
                     l_status := auctions.status a;
                     l_product :=
                       option_map
                         (fun p => (products.id p, products.title p,
                                    products.description p, products.images p))
                         (join_product db (auctions.product_id a)) |})
             (order auctions.end_time true
                (filter (fun a => Status_eqb (auctions.status a) active)
                   (tbl_auctions db)));
         ls_loading := false;
         ls_error := ls_error ls |}
  end.

(** ** Bid submission *)

(** The return points of [handleBidSubmit], in source order. *)
Inductive Exit : Type :=
| ExitSignIn          (* 'Please sign in to place a bid' *)
| ExitAlreadyBid      (* 'You have already placed a bid ...' *)
| ExitBasePrice       (* 'Bid amount must be higher than the base price' *)
| ExitInsertFailed    (* the catch block *)
| ExitPlaced.         (* the success path *)

Definition same_pair (b c : bids.row) : bool :=
  String.eqb (bids.auction_id b) (bids.auction_id c)
  && String.eqb (bids.bidder_id b) (bids.bidder_id c).

(** [from('bids').insert([row])] as the storage serves it: the row is
    appended, unless the request fails or the table declares uniqueness
    and holds a row of the same (auction, bidder). *)
Definition insert_bid (db : Db) (fault : option PostgrestError)
  (b : bids.row) : Db * option PostgrestError :=
  match fault with
  | Some e => (db, Some e)
  | None =>
      if bids_unique db && existsb (same_pair b) (tbl_bids db)
      then (db, Some unique_violation)
      else ({| tbl_products := tbl_products db;
               tbl_auctions := tbl_auctions db;
               tbl_bids := (tbl_bids db ++ [b])%list;
               tbl_profiles := tbl_profiles db;
               bids_unique := bids_unique db |}, None)
  end.

(** The handler up to its second [await]: given the answer of the
    pre-check query it either returns, or has an insert to send. *)
Definition handleBidSubmit_checks (uid id : string) (now : Z)
  (resp : Response bids.row) (st : PageState)
  : PageState * (Exit + bids.row) :=
  let '(existingBid, bidCheckError) := resp in
  match existingBid with
  | Some b =>
      (setUserBidAmount (Some (bids.amount b))
         (setHasUserBid true
            (setError
               (Some "You have already placed a bid for this auction. One bid per item is allowed and cannot be modified.")
               st)),
       inl ExitAlreadyBid)
  | None =>
      if match auction st with
         | None => true
         | Some a => bidAmount st <=? start_price a
         end
      then (setError (Some "Bid amount must be higher than the base price") st,
            inl ExitBasePrice)
      else (st, inr {| bids.auction_id := id; bids.bidder_id := uid;
                       bids.amount := bidAmount st;
                       bids.created_at := now |})
  end.

(** The handler after the insert has been answered. *)
Definition handleBidSubmit_after_insert (error : option PostgrestError)
  (st : PageState) : PageState * Exit :=
  match error with
  | Some e => (setError (Some (shown_message "Failed to place bid" e)) st,
               ExitInsertFailed)
  | None =>
      (setError None
         (setShowSuccessToast true
            (setUserBidAmount (Some (bidAmount st))
               (setHasUserBid true st))),
       ExitPlaced)
  end.

(** [handleBidSubmit] run without interruption.  [user] is the signed-in
    user's id if any, [id] the route parameter (the form exists only on a
    loaded auction, so it is a string here), [now] the client clock,
    [check_fault] and [insert_fault] the failures of the two requests. *)
Definition handleBidSubmit (user : option string) (id : string) (now : Z)
  (check_fault insert_fault : option PostgrestError)
  (db : Db) (st : PageState) : Exit * PageState * Db :=
  match user with
  | None => (ExitSignIn, setError (Some "Please sign in to place a bid") st, db)
  | Some uid =>
      match handleBidSubmit_checks uid id now
              (own_bid_query db id uid check_fault) st with
      | (st1, inl e) => (e, st1, db)
      | (st1, inr row) =>
          let '(db', error) := insert_bid db insert_fault row in
          let '(st2, e) := handleBidSubmit_after_insert error st1 in
          (e, st2, db')
      end
  end.

(** ** The effect on [id] and what the page renders *)

(** The body of [useEffect(..., [id])].  [isEnded] is the value computed
    by the render that scheduled the effect, so it is taken from the state
    before any of the three fetches has answered.  The fetches write
    disjoint state variables. *)
Definition id_effect (user id : option string) (now : Z) (db : Db)
  (f_details f_own f_winner : option PostgrestError) (st : PageState)
  : PageState * Console :=
  match truthy_id id with
  | None => (st, [])
  | Some aid =>
      let ended := isEnded (auction st) now in
      let st1 := fetchAuctionDetails aid db f_details st in
      let '(st2, c2) := checkUserBid user id db f_own st1 in
      if ended
      then let '(st3, c3) := fetchWinnerDetails id db f_winner st2 in
           (st3, (c2 ++ c3)%list)
      else (st2, c2)
  end.

(** The bid-related parts of the rendered detail page. *)
Record DetailView : Type := {
  v_base_price : Z;
  v_ended : bool;
  v_winner : option Winner;     (* isEnded && winner *)
  v_bid_form : bool;            (* !isEnded && !hasUserBid *)
  v_own_bid : option (option Z) (* !isEnded && hasUserBid *)
}.

Inductive Screen : Type :=
| Spinner
| ErrorText (msg : string)
| NotFoundText
| Detail (v : DetailView).

(** JavaScript truthiness of the [error] variable: null and the empty
    string are falsy. *)
Definition truthy_error (e : option string) : option string :=
  match e with
  | Some msg => if String.eqb msg "" then None else Some msg
  | None => None
  end.

Definition render (st : PageState) (now : Z) : Screen :=
  if loading st then Spinner
  else match truthy_error (error st) with
       | Some msg => ErrorText msg
       | None =>
           match auction st with
           | None => NotFoundText
           | Some a =>
               let ended := isEnded (auction st) now in
               Detail
                 {| v_base_price := start_price a;
                    v_ended := ended;
                    v_winner := if ended then winner st else None;
                    v_bid_form := negb ended && negb (hasUserBid st);
                    v_own_bid :=
                      if negb ended && hasUserBid st
                      then Some (userBidAmount st) else None |}
           end
       end.

(** ** Interleaved submissions

    A submission waits at two points, the pre-check query and the insert.
    Several sessions (browser tabs) share the storage; a schedule says
    whose pending request the storage serves next. *)

Inductive Phase : Type :=
| Clicked                      (* handler entered, pre-check not yet served *)
| Inserting (row : bids.row)   (* pre-check done, insert not yet served *)
| Returned (e : Exit).

Record Session : Type := {
  s_user : option string;
  s_id : string;
  s_now : Z;
  s_state : PageState;
  s_phase : Phase
}.

Definition with_phase (st : PageState) (ph : Phase) (s : Session) : Session :=
  {| s_user := s_user s; s_id := s_id s; s_now := s_now s;
     s_state := st; s_phase := ph |}.

Definition step_session (db : Db) (s : Session) : Db * Session :=
  match s_phase s with
  | Clicked =>
      match s_user s with
      | None =>
          (db, with_phase
                 (setError (Some "Please sign in to place a bid") (s_state s))
                 (Returned ExitSignIn) s)
      | Some uid =>
          match handleBidSubmit_checks uid (s_id s) (s_now s)
                  (own_bid_query db (s_id s) uid None) (s_state s) with
          | (st1, inl e) => (db, with_phase st1 (Returned e) s)
          | (st1, inr row) => (db, with_phase st1 (Inserting row) s)
          end
      end
  | Inserting row =>
      let '(db', error) := insert_bid db None row in
      let '(st2, e) := handleBidSubmit_after_insert error (s_state s) in
      (db', with_phase st2 (Returned e) s)
  | Returned _ => (db, s)
  end.

Fixpoint step_nth (i : nat) (db : Db) (ss : list Session)
  : Db * list Session :=
  match ss, i with
  | [], _ => (db, [])
  | s :: ss', O => let '(db', s') := step_session db s in (db', s' :: ss')
  | s :: ss', S j => let '(db', ss'') := step_nth j db ss' in (db', s :: ss'')
  end.

Fixpoint run (schedule : list nat) (db : Db) (ss : list Session)
  : Db * list Session :=
  match schedule with
  | [] => (db, ss)
  | i :: rest => let '(db', ss') := step_nth i db ss in run rest db' ss'
  end.

Definition submit (user : option string) (id : string) (now : Z)
  (st : PageState) : Session :=
  {| s_user := user; s_id := id; s_now := now; s_state := st;
     s_phase := Clicked |}.

(** The bids of one (auction, bidder) pair. *)
Definition bids_of (db : Db) (id uid : string) : list bids.row :=
  filter (fun b => eq_auction_id id b && eq_bidder_id uid b) (tbl_bids db).

Definition one_bid_per_pair (db : Db) : Prop :=
  forall id uid, (List.length (bids_of db id uid) <= 1)%nat.

(** ** The outcome vocabulary of the specification *)

Inductive ErrorKind : Type :=
| NotFound | InvalidState | Conflict | Validation | Unauthorized.

(** How the messages of [handleBidSubmit] read in that vocabulary; a
    failed insert is shown as whatever the storage said and has no kind of
    its own. *)
Definition error_kind (e : Exit) : option ErrorKind :=
  match e with
  | ExitSignIn => Some Unauthorized
  | ExitAlreadyBid => Some Conflict
  | ExitBasePrice => Some Validation
  | ExitInsertFailed => None
  | ExitPlaced => None
  end.

(** The order of precondition checks as the specification words it
    (section 4.2), for comparison with [handleBidSubmit]: auction exists,
    then status is active (ended by time counts as not active, by the
    clock check [end_time <= now]), then the amount, then the prior bid. *)
Definition spec_submit_bid_error (auction : option Auction) (now amount : Z)
  (prior_bid : bool) : option ErrorKind :=
  match auction with
  | None => Some NotFound
  | Some a =>
      if negb (Status_eqb (status a) active) || (end_time a <=? now)
      then Some InvalidState
      else if amount <=? start_price a then Some Validation
      else if prior_bid then Some Conflict
      else None
  end.

(** The clock check as the specification words it (section 4.5). *)
Definition spec_clock_check (end_time now : Z) : bool := end_time <=? now.



(** ** Sample data: the scenarios of the specification

    start_price = 100, end_time = T + 1h with T = 0. *)

Definition lot : products.row :=
  {| products.id := "p1"; products.title := "Lot";
     products.description := "A lot"; products.images := None;
     products.seller_id := "seller" |}.

Definition auction_row : auctions.row :=
  {| auctions.id := "a1"; auctions.product_id := "p1";
     auctions.start_price := 100; auctions.end_time := 3600000;
     auctions.status := active; auctions.created_at := 0 |}.

Definition people : list profiles.row :=
  [ {| profiles.id := "X"; profiles.full_name := "Xavier" |};
    {| profiles.id := "Y"; profiles.full_name := "Yvonne" |};
    {| profiles.id := "Z"; profiles.full_name := "Zoe" |} ].

Definition bid (uid : string) (amount created : Z) : bids.row :=
  {| bids.auction_id := "a1"; bids.bidder_id := uid;
     bids.amount := amount; bids.created_at := created |}.

Definition db_with (unique : bool) (rows : list bids.row) : Db :=
  {| tbl_products := [lot]; tbl_auctions := [auction_row];
     tbl_bids := rows; tbl_profiles := people; bids_unique := unique |}.

(** The page once [fetchAuctionDetails] has answered. *)
Definition loaded : PageState :=
  fetchAuctionDetails "a1" (db_with false []) None initial_state.

Definition auction_a1 : Auction :=
  {| id := "a1";
     product := {| p_id := "p1"; p_title := "Lot"; p_description := "A lot";
                   p_images := []; p_seller_id := "seller" |};
     start_price := 100; end_time := 3600000; status := active |}.

(** Scenario C, with the rows delivered in creation order and with Z's
    row delivered before Y's. *)
Definition scenario_C : list bids.row :=
  [bid "X" 150 1000; bid "Y" 200 2000; bid "Z" 200 3000].


(** The same auction with another end time and status. *)
Definition reschedule (e : Z) (s : Status) (a : Auction) : Auction :=
  {| id := id a; product := product a; start_price := start_price a;
     end_time := e; status := s |}.

(** The rows of [bids] that belong to one bidder. *)
Definition own_rows (uid : string) (db : Db) : list bids.row :=
  filter (eq_bidder_id uid) (tbl_bids db).

(** Two storages agree for an actor when they hold the same auctions,
    products and profiles and the same bids of that actor; the bids of
    everybody else (their number, owners, amounts, dates) are free. *)
Definition agree_for (user : option string) (db1 db2 : Db) : Prop :=
  tbl_auctions db1 = tbl_auctions db2
  /\ tbl_products db1 = tbl_products db2
  /\ tbl_profiles db1 = tbl_profiles db2
  /\ forall uid, user = Some uid -> own_rows uid db1 = own_rows uid db2.

(** ** Home page: featured auctions *)

Record Featured : Type := {
  f_id : string;
  f_start_price : Z;
  f_end_time : Z;
  f_product : option (string * option (list string))
}.

Record HomeState : Type := {
  featuredAuctions : list Featured;
  h_loading : bool
}.

Definition is_active (a : auctions.row) : bool :=
  Status_eqb (auctions.status a) active.

(** The rows selected by [from('auctions').select(...).eq('status',
    'active').order('created_at', { ascending: false }).limit(3)]. *)
Definition featured_rows (db : Db) : list auctions.row :=
  limit 3 (order auctions.created_at false (filter is_active (tbl_auctions db))).

Definition fetchFeaturedAuctions (db : Db) (fault : option PostgrestError)
  (hs : HomeState) : HomeState * Console :=
  match fault with
  | Some _ =>
      ({| featuredAuctions := featuredAuctions hs; h_loading := false |},
       ["Error fetching featured auctions:"])
  | None =>
      ({| featuredAuctions :=
            map (fun a =>
                   {| f_id := auctions.id a;
                      f_start_price := auctions.start_price a;
                      f_end_time := auctions.end_time a;
                      f_product :=
                        option_map
                          (fun p => (products.title p, products.images p))
                          (join_product db (auctions.product_id a)) |})
              (featured_rows db);
          h_loading := false |}, [])
  end.

(** The row that [handleBidSubmit] sends to the storage. *)
Definition bid_row (aid uid : string) (amount now : Z) : bids.row :=
  {| bids.auction_id := aid; bids.bidder_id := uid;
     bids.amount := amount; bids.created_at := now |}.

(** Two rows stand in the order asked for by [.order(key, { ascending })]. *)
Definition in_order {A : Type} (key : A -> Z) (ascending : bool) (a b : A)
  : Prop :=
  if ascending then key a <= key b else key b <= key a.

(** A page that holds another auction, a0, which ended at 1000. *)
Definition auction_a0 : Auction :=
  {| id := "a0"; product := product auction_a1;
     start_price := 50; end_time := 1000; status := ended |}.

Definition page_of_a0 : PageState :=
  setBidAmount 50 (setAuction (Some auction_a0) loaded).

(** * Properties *)

(** ** Clock check *)

Lemma loaded_auction : auction loaded = Some auction_a1.
Proof. reflexivity. Qed.

(** C9, counterexample: at the instant [now = end_time] the comparison
    [end_time <= now] of the specification holds, yet [isEnded] is
    false. *)
Lemma isEnded_at_end_time_is_false :
  spec_clock_check (end_time auction_a1) 3600000 = true
  /\ isEnded (Some auction_a1) 3600000 = false.
Proof. split; reflexivity. Qed.

(** C9, as amended: [isEnded] is the strict comparison
    [end_time < now] on a loaded auction, and false while no auction is
    loaded; an auction whose end_time equals the current instant is not
    yet ended. *)
Theorem isEnded_strict : forall (a : option Auction) (now : Z),
  (isEnded a now = true <-> exists x, a = Some x /\ end_time x < now)
  /\ (forall x, isEnded (Some x) (end_time x) = false).
Proof.
  intros a now. split.
  - destruct a as [x|]; simpl.
    + rewrite Z.ltb_lt. split.
      * intros H. exists x. split; [reflexivity | exact H].
      * intros [y [Hy Hlt]]. inversion Hy; subst. exact Hlt.
    + split; [discriminate | intros [y [Hy _]]; discriminate].
  - intros x. simpl. apply Z.ltb_irrefl.
Qed.

(** ** Bid submission *)

Lemma own_bid_query_fault : forall db id uid e,
  own_bid_query db id uid (Some e) = (None, Some e).
Proof. reflexivity. Qed.

Lemma checks_ignore_error : forall uid id now existing e1 e2 st,
  handleBidSubmit_checks uid id now (existing, e1) st
  = handleBidSubmit_checks uid id now (existing, e2) st.
Proof. reflexivity. Qed.

Lemma insert_bid_failed_keeps_db : forall db fault b db' e,
  insert_bid db fault b = (db', Some e) -> db' = db.
Proof.
  intros db fault b db' e. unfold insert_bid.
  destruct fault as [f|].
  - intros H. inversion H. reflexivity.
  - destruct (bids_unique db && existsb (same_pair b) (tbl_bids db));
      intros H; inversion H. reflexivity.
Qed.

(** The handler, read as a decision list over the answer of the
    pre-check. *)
Lemma handleBidSubmit_unfold : forall uid id now cf ifl db st,
  handleBidSubmit (Some uid) id now cf ifl db st =
  match fst (own_bid_query db id uid cf) with
  | Some b =>
      (ExitAlreadyBid,
       setUserBidAmount (Some (bids.amount b))
         (setHasUserBid true
            (setError
               (Some "You have already placed a bid for this auction. One bid per item is allowed and cannot be modified.")
               st)),
       db)
  | None =>
      if match auction st with
         | None => true
         | Some a => bidAmount st <=? start_price a
         end
      then (ExitBasePrice,
            setError (Some "Bid amount must be higher than the base price") st,
            db)
      else
        let '(db', error) :=
          insert_bid db ifl
            {| bids.auction_id := id; bids.bidder_id := uid;
               bids.amount := bidAmount st; bids.created_at := now |} in
        let '(st2, e) := handleBidSubmit_after_insert error st in
        (e, st2, db')
  end.
Proof.
  intros uid aid now cf ifl db st.
  unfold handleBidSubmit, handleBidSubmit_checks.
  destruct (own_bid_query db aid uid cf) as [[b|] err]; simpl; [reflexivity|].
  destruct (match auction st with
            | Some a => bidAmount st <=? start_price a
            | None => true
            end); reflexivity.
Qed.

(** C10: when the pre-check query itself fails, [existingBid] is absent
    whatever the table holds, the error is looked at nowhere, and the
    handler goes on exactly as for a bidder without a prior bid: it never
    reports a prior bid; it runs the amount check, which refuses an amount
    not above the start price; and for an amount above the start price of
    the loaded auction it sends the insert of (auction, bidder, amount,
    now), which on an answering table without the uniqueness constraint
    stores that row behind the bids already there. *)
Theorem precheck_error_is_discarded : forall uid aid now e ifl db st,
  let r := handleBidSubmit (Some uid) aid now (Some e) ifl db st in
  let row := bid_row aid uid (bidAmount st) now in
  fst (own_bid_query db aid uid (Some e)) = None
  /\ fst (fst r) <> ExitAlreadyBid
  /\ (forall db0,
        bids_of db0 aid uid = [] ->
        handleBidSubmit_checks uid aid now (own_bid_query db aid uid (Some e)) st
        = handleBidSubmit_checks uid aid now (own_bid_query db0 aid uid None) st)
  /\ (auction st = None
      \/ (exists a, auction st = Some a /\ bidAmount st <= start_price a) ->
      fst (fst r) = ExitBasePrice /\ snd r = db)
  /\ (forall a,
        auction st = Some a -> start_price a < bidAmount st ->
        snd r = fst (insert_bid db ifl row)
        /\ fst (fst r) = match snd (insert_bid db ifl row) with
                         | Some _ => ExitInsertFailed
                         | None => ExitPlaced
                         end
        /\ (ifl = None -> bids_unique db = false ->
            fst (fst r) = ExitPlaced
            /\ tbl_bids (snd r) = (tbl_bids db ++ [row])%list)).
Proof.
  intros uid aid now e ifl db st. cbv zeta.
  split; [reflexivity|].
  rewrite handleBidSubmit_unfold. simpl fst at 3.
  split.
  { simpl. destruct (match auction st with
                     | Some a => bidAmount st <=? start_price a
                     | None => true
                     end); [discriminate|].
    destruct (insert_bid db ifl _) as [db' [x|]]; discriminate. }
  split.
  { intros db0 H0. unfold own_bid_query at 2. unfold bids_of in H0.
    rewrite H0. reflexivity. }
  split.
  { simpl. intros [Hn | [a [Ha Hle]]].
    - rewrite Hn. split; reflexivity.
    - rewrite Ha. apply Z.leb_le in Hle. rewrite Hle. split; reflexivity. }
  intros a Ha Hgt. simpl. rewrite Ha. apply Z.leb_gt in Hgt. rewrite Hgt.
  fold (bid_row aid uid (bidAmount st) now).
  split; [|split].
  - destruct (insert_bid db ifl _) as [db' [x|]]; reflexivity.
  - destruct (insert_bid db ifl _) as [db' [x|]]; reflexivity.
  - intros -> Hu. unfold insert_bid. rewrite Hu. simpl. split; reflexivity.
Qed.

Lemma precheck_error_is_discarded_witness :
  let db := db_with false [bid "X" 150 600000] in
  let st := setBidAmount 170 loaded in
  let r := handleBidSubmit (Some "X") "a1" 700000 (Some PGRST116) None db st in
  bids_of db "a1" "X" = [bid "X" 150 600000]
  /\ auction st = Some auction_a1
  /\ start_price auction_a1 < bidAmount st
  /\ fst (fst r) = ExitPlaced
  /\ tbl_bids (snd r) = [bid "X" 150 600000; bid "X" 170 700000].
Proof.
  cbv zeta. split; [reflexivity|]. split; [reflexivity|].
  split; [reflexivity|].
  apply (proj2 (proj2
           (proj2 (proj2 (proj2 (proj2
              (precheck_error_is_discarded "X" "a1" 700000 PGRST116 None
                 (db_with false [bid "X" 150 600000])
                 (setBidAmount 170 loaded)))))
              auction_a1 eq_refl eq_refl)));
    reflexivity.
Defined.

(** A consequence on a table without the uniqueness constraint: a bidder
    who already holds a bid gets a second one in when the pre-check
    fails. *)
Example failed_precheck_lets_second_bid_in :
  let r := handleBidSubmit (Some "X") "a1" 700000 (Some PGRST116) None
             (db_with false [bid "X" 150 600000]) (setBidAmount 170 loaded) in
  fst (fst r) = ExitPlaced
  /\ tbl_bids (snd r) = [bid "X" 150 600000; bid "X" 170 700000].
Proof. split; reflexivity. Qed.

(** X15: The handler reads neither the end time nor the status of the
    auction. *)
Lemma handleBidSubmit_ignores_liveness :
  forall user id now cf ifl db st a e s,
    auction st = Some a ->
    let r := handleBidSubmit user id now cf ifl db st in
    let r' := handleBidSubmit user id now cf ifl db
                (setAuction (Some (reschedule e s a)) st) in
    fst (fst r') = fst (fst r) /\ snd r' = snd r.
Proof.
  intros user id0 now cf ifl db st a e s Ha. cbv zeta.
  destruct user as [uid|]; [|split; reflexivity].
  rewrite !handleBidSubmit_unfold.
  destruct (fst (own_bid_query db id0 uid cf)); [split; reflexivity|].
  rewrite Ha. simpl.
  destruct (bidAmount st <=? start_price a); [split; reflexivity|].
  destruct (insert_bid db ifl _) as [db' [err|]]; split; reflexivity.
Qed.

(** C3, the code at the failing input: the page was rendered before the
    end time, the form is submitted one millisecond after it; the
    specification asks for InvalidState, the handler inserts the bid. *)
Theorem late_bid_is_inserted :
  let st := setBidAmount 150 loaded in
  let now := 3600001 in
  let r := handleBidSubmit (Some "X") "a1" now None None (db_with false []) st in
  isEnded (auction st) now = true
  /\ spec_submit_bid_error (auction st) now 150 false = Some InvalidState
  /\ fst (fst r) = ExitPlaced
  /\ tbl_bids (snd r) = [bid "X" 150 3600001].
Proof. repeat split. Qed.




(** C6, counterexample: an amount equal to the start price, from a bidder
    who already holds a bid, is answered with the prior-bid error, not
    with the base-price error. *)
Lemma low_bid_of_prior_bidder_is_conflict :
  let st := setBidAmount 100 loaded in
  let db := db_with false [bid "X" 150 600000] in
  let r := handleBidSubmit (Some "X") "a1" 700000 None None db st in
  bidAmount st <= start_price auction_a1
  /\ error_kind (fst (fst r)) = Some Conflict
  /\ error_kind (fst (fst r)) <> Some Validation.
Proof.
  cbv zeta. split; [vm_compute; discriminate|].
  split; [reflexivity | vm_compute; discriminate].
Qed.

(** C6, as amended: a submission with amount <= start_price never inserts
    a bid, whatever the end time and status of the auction.  It is
    answered with the sign-in error when no user is signed in, else with
    the prior-bid error (Conflict) when the pre-check returned a bid of
    this bidder, else with the base-price error (Validation). *)
Theorem low_bid_never_inserted : forall user id now cf ifl db st a,
  auction st = Some a ->
  bidAmount st <= start_price a ->
  let r := handleBidSubmit user id now cf ifl db st in
  snd r = db
  /\ fst (fst r) <> ExitPlaced
  /\ (user = None ->
      fst (fst r) = ExitSignIn
      /\ error_kind (fst (fst r)) = Some Unauthorized)
  /\ (forall uid b, user = Some uid ->
        fst (own_bid_query db id uid cf) = Some b ->
        fst (fst r) = ExitAlreadyBid
        /\ error_kind (fst (fst r)) = Some Conflict)
  /\ (forall uid, user = Some uid ->
        fst (own_bid_query db id uid cf) = None ->
        fst (fst r) = ExitBasePrice
        /\ error_kind (fst (fst r)) = Some Validation).
Proof.
  intros user id0 now cf ifl db st a Ha Hle. cbv zeta.
  apply Z.leb_le in Hle.
  destruct user as [uid|].
  - rewrite handleBidSubmit_unfold.
    destruct (fst (own_bid_query db id0 uid cf)) as [b|] eqn:Hq.
    + split; [reflexivity|]. split; [discriminate|].
      split; [discriminate|]. split.
      * intros u b' _ _. split; reflexivity.
      * intros u Hu Hn. inversion Hu; subst u. congruence.
    + rewrite Ha, Hle. split; [reflexivity|]. split; [discriminate|].
      split; [discriminate|]. split.
      * intros u b' Hu Hs. inversion Hu; subst u. congruence.
      * intros u _ _. split; reflexivity.
  - split; [reflexivity|]. split; [discriminate|].
    split; [intros _; split; reflexivity|]. split.
    + intros u b' Hu. discriminate Hu.
    + intros u Hu. discriminate Hu.
Qed.

Lemma low_bid_never_inserted_witness :
  let st := setBidAmount 80 loaded in
  let db := db_with false [] in
  auction st = Some auction_a1
  /\ bidAmount st <= start_price auction_a1
  /\ (let r := handleBidSubmit (Some "Y") "a1" 700000 None None db st in
      snd r = db
      /\ fst (fst r) <> ExitPlaced
      /\ (Some "Y" = None ->
          fst (fst r) = ExitSignIn
          /\ error_kind (fst (fst r)) = Some Unauthorized)
      /\ (forall uid b, Some "Y" = Some uid ->
            fst (own_bid_query db "a1" uid None) = Some b ->
            fst (fst r) = ExitAlreadyBid
            /\ error_kind (fst (fst r)) = Some Conflict)
      /\ (forall uid, Some "Y" = Some uid ->
            fst (own_bid_query db "a1" uid None) = None ->
            fst (fst r) = ExitBasePrice
            /\ error_kind (fst (fst r)) = Some Validation)).
Proof.
  split; [reflexivity|]. split; [vm_compute; discriminate|].
  apply (low_bid_never_inserted (Some "Y") "a1" 700000 None None
           (db_with false []) (setBidAmount 80 loaded) auction_a1).
  - reflexivity.
  - vm_compute. discriminate.
Defined.

(** ** Winner lookup *)

Section OrderDescending.
Context {A : Type} (key : A -> Z).

End OrderDescending.

Lemma winner_query_empty : forall db aid,
  filter (eq_auction_id aid) (tbl_bids db) = [] ->
  winner_query db aid None = (None, Some PGRST116).
Proof.
  intros db aid H. unfold winner_query. rewrite H. reflexivity.
Qed.


Lemma truthy_id_Some : forall aid, aid <> "" -> truthy_id (Some aid) = Some aid.
Proof.
  intros aid H. simpl. destruct (String.eqb_spec aid ""); [contradiction | reflexivity].
Qed.


(** Scenario C with the rows delivered in creation order: Y, 200. *)
Example scenario_C_in_creation_order :
  winner (fst (fetchWinnerDetails (Some "a1") (db_with false scenario_C)
                 None loaded))
  = Some {| user_name := "Yvonne"; bid_amount := 200 |}.
Proof. reflexivity. Qed.




(** C7, the code on an auction without bids: [.single()] answers zero
    rows with an error, the lookup throws it, and the catch block logs
    it; the winner is left as it was. *)
Theorem fetchWinnerDetails_no_bids_is_logged_error : forall db aid st,
  aid <> "" ->
  filter (eq_auction_id aid) (tbl_bids db) = [] ->
  snd (winner_query db aid None) = Some PGRST116
  /\ fetchWinnerDetails (Some aid) db None st
     = (st, ["Error fetching winner details:"]).
Proof.
  intros db aid st Hid He.
  unfold fetchWinnerDetails.
  rewrite (truthy_id_Some aid Hid), (winner_query_empty db aid He).
  split; reflexivity.
Qed.

Lemma fetchWinnerDetails_no_bids_witness :
  "a1" <> ""
  /\ filter (eq_auction_id "a1") (tbl_bids (db_with false [])) = []
  /\ snd (winner_query (db_with false []) "a1" None) = Some PGRST116
  /\ fetchWinnerDetails (Some "a1") (db_with false []) None loaded
     = (loaded, ["Error fetching winner details:"]).
Proof.
  split; [discriminate|]. split; [reflexivity|].
  apply (fetchWinnerDetails_no_bids_is_logged_error (db_with false []) "a1" loaded);
    [discriminate | reflexivity].
Defined.

(** The sibling lookup treats an absent row as a plain answer: nothing is
    logged and the page records that the user has no bid. *)
Example checkUserBid_no_bid_is_no_error :
  checkUserBid (Some "X") (Some "a1") (db_with false []) None loaded
  = (setHasUserBid false loaded, []).
Proof. reflexivity. Qed.



(** Calling the lookup again on its own result changes nothing. *)
Lemma fetchWinnerDetails_again : forall oid db fault st,
  fetchWinnerDetails oid db fault
    (fst (fetchWinnerDetails oid db fault st))
  = fetchWinnerDetails oid db fault st.
Proof.
  intros oid db fault st. unfold fetchWinnerDetails.
  destruct (truthy_id oid) as [aid|]; [|reflexivity].
  destruct (winner_query db aid fault) as [data [e|]]; [reflexivity|].
  destruct data as [[amount [bidder|]]|]; reflexivity.
Qed.




(** ** Confidentiality of the reads *)




Lemma join_product_products : forall db1 db2 pid,
  tbl_products db1 = tbl_products db2 ->
  join_product db1 pid = join_product db2 pid.
Proof. intros db1 db2 pid H. unfold join_product. rewrite H. reflexivity. Qed.







(** ** Concurrent submissions *)

(** A session served alone, twice, is [handleBidSubmit]. *)
Lemma run_alone_is_handleBidSubmit : forall user aid now db st,
  run [0; 0]%nat db [submit user aid now st]
  = (snd (handleBidSubmit user aid now None None db st),
     [with_phase (snd (fst (handleBidSubmit user aid now None None db st)))
        (Returned (fst (fst (handleBidSubmit user aid now None None db st))))
        (submit user aid now st)]).
Proof.
  intros user aid now db st.
  destruct user as [uid|]; [|reflexivity].
  cbn -[insert_bid handleBidSubmit_after_insert handleBidSubmit_checks
        own_bid_query].
  destruct (handleBidSubmit_checks uid aid now (own_bid_query db aid uid None) st)
    as [st1 [e|row]];
    cbn -[insert_bid handleBidSubmit_after_insert]; [reflexivity|].
  destruct (insert_bid db None row) as [db' err].
  destruct (handleBidSubmit_after_insert err st1) as [st2 e]. reflexivity.
Qed.

Lemma insert_bid_keeps_flag : forall db fault b,
  bids_unique (fst (insert_bid db fault b)) = bids_unique db.
Proof.
  intros db fault b. unfold insert_bid. destruct fault; [reflexivity|].
  destruct (bids_unique db && existsb (same_pair b) (tbl_bids db)); reflexivity.
Qed.

(** On a table that declares uniqueness an insert keeps at most one bid
    per (auction, bidder). *)
Lemma insert_bid_unique_invariant : forall db fault b,
  bids_unique db = true ->
  one_bid_per_pair db ->
  one_bid_per_pair (fst (insert_bid db fault b)).
Proof.
  intros db fault b Hu Hinv. unfold insert_bid.
  destruct fault; [exact Hinv|]. rewrite Hu. simpl.
  destruct (existsb (same_pair b) (tbl_bids db)) eqn:Ex; [exact Hinv|].
  intros aid uid. unfold bids_of. simpl. rewrite filter_app, length_app. simpl.
  destruct (eq_auction_id aid b && eq_bidder_id uid b) eqn:Hb; simpl.
  - assert (Hnone : filter (fun c => eq_auction_id aid c && eq_bidder_id uid c)
                      (tbl_bids db) = []).
    { destruct (filter (fun c => eq_auction_id aid c && eq_bidder_id uid c)
                  (tbl_bids db)) as [|c l] eqn:F; [reflexivity|].
      assert (Hc : In c (filter (fun c => eq_auction_id aid c && eq_bidder_id uid c)
                           (tbl_bids db))) by (rewrite F; left; reflexivity).
      apply filter_In in Hc. destruct Hc as [Hin Hc].
      assert (Hex : existsb (same_pair b) (tbl_bids db) = true).
      { apply existsb_exists. exists c. split; [exact Hin|].
        unfold same_pair, eq_auction_id, eq_bidder_id in *.
        apply andb_true_iff in Hb. apply andb_true_iff in Hc.
        destruct Hb as [Hb1 Hb2]. destruct Hc as [Hc1 Hc2].
        apply String.eqb_eq in Hb1, Hb2, Hc1, Hc2.
        rewrite Hb1, Hb2, Hc1, Hc2, !String.eqb_refl. reflexivity. }
      rewrite Ex in Hex. discriminate. }
    rewrite Hnone. simpl. lia.
  - specialize (Hinv aid uid). unfold bids_of in Hinv. lia.
Qed.

Lemma step_session_unique_invariant : forall db s,
  bids_unique db = true -> one_bid_per_pair db ->
  bids_unique (fst (step_session db s)) = true
  /\ one_bid_per_pair (fst (step_session db s)).
Proof.
  intros db s Hu Hinv. unfold step_session.
  destruct (s_phase s) as [|row|e].
  - destruct (s_user s) as [uid|]; [|split; assumption].
    destruct (handleBidSubmit_checks uid (s_id s) (s_now s)
                (own_bid_query db (s_id s) uid None) (s_state s))
      as [st1 [e|row]]; split; assumption.
  - pose proof (insert_bid_keeps_flag db None row) as Hf.
    pose proof (insert_bid_unique_invariant db None row Hu Hinv) as Hi.
    destruct (insert_bid db None row) as [db' err]. simpl in *.
    destruct (handleBidSubmit_after_insert err (s_state s)) as [st2 e].
    simpl. split; [congruence | exact Hi].
  - split; assumption.
Qed.

Lemma step_nth_unique_invariant : forall ss i db,
  bids_unique db = true -> one_bid_per_pair db ->
  bids_unique (fst (step_nth i db ss)) = true
  /\ one_bid_per_pair (fst (step_nth i db ss)).
Proof.
  induction ss as [|s ss IH]; intros i db Hu Hinv.
  - destruct i; split; assumption.
  - destruct i as [|j]; simpl.
    + pose proof (step_session_unique_invariant db s Hu Hinv) as H.
      destruct (step_session db s) as [db' s']. exact H.
    + pose proof (IH j db Hu Hinv) as H.
      destruct (step_nth j db ss) as [db' ss']. exact H.
Qed.

(** Where the table declares uniqueness, no interleaving of any number of
    submissions leaves two bids of one bidder on one auction: the storage
    constraint, not the pre-check, is what holds the invariant. *)
Lemma unique_table_keeps_one_bid_per_pair : forall schedule db ss,
  bids_unique db = true ->
  one_bid_per_pair db ->
  one_bid_per_pair (fst (run schedule db ss)).
Proof.
  induction schedule as [|i rest IH]; intros db ss Hu Hinv; simpl.
  - exact Hinv.
  - pose proof (step_nth_unique_invariant ss i db Hu Hinv) as [Hu' Hinv'].
    destruct (step_nth i db ss) as [db' ss']. simpl in *.
    apply IH; assumption.
Qed.

(** C1, the code at the failing input: two identical submissions of
    bidder X whose pre-checks are both served before either insert.  The
    check and the insert are two requests; on a table without the
    uniqueness constraint both inserts go through and X holds two bids.
    Where the table does declare uniqueness the second insert is refused
    by the storage and shown as a failed insert, not as the prior-bid
    error. *)
Theorem interleaved_submissions_both_insert :
  let s1 := submit (Some "X") "a1" 600000 (setBidAmount 150 loaded) in
  let s2 := submit (Some "X") "a1" 600001 (setBidAmount 150 loaded) in
  let plain := run [0; 1; 0; 1]%nat (db_with false []) [s1; s2] in
  let constrained := run [0; 1; 0; 1]%nat (db_with true []) [s1; s2] in
  map s_phase (snd (run [0; 1]%nat (db_with false []) [s1; s2]))
  = [Inserting (bid "X" 150 600000); Inserting (bid "X" 150 600001)]
  /\ bids_of (fst plain) "a1" "X" = [bid "X" 150 600000; bid "X" 150 600001]
  /\ map s_phase (snd plain) = [Returned ExitPlaced; Returned ExitPlaced]
  /\ ~ one_bid_per_pair (fst plain)
  /\ bids_of (fst constrained) "a1" "X" = [bid "X" 150 600000]
  /\ map s_phase (snd constrained)
     = [Returned ExitPlaced; Returned ExitInsertFailed]
  /\ error_kind ExitInsertFailed <> Some Conflict.
Proof.
  cbv zeta. repeat split; try reflexivity.
  - intros H. specialize (H "a1" "X"). vm_compute in H. lia.
  - discriminate.
Qed.

(** Served one after the other, the second submission is stopped by the
    pre-check. *)
Example sequential_submissions_conflict :
  let s1 := submit (Some "X") "a1" 600000 (setBidAmount 150 loaded) in
  let s2 := submit (Some "X") "a1" 600001 (setBidAmount 170 loaded) in
  let w := run [0; 0; 1; 1]%nat (db_with false []) [s1; s2] in
  tbl_bids (fst w) = [bid "X" 150 600000]
  /\ map s_phase (snd w) = [Returned ExitPlaced; Returned ExitAlreadyBid].
Proof. split; reflexivity. Qed.

(** * Further properties of the pages *)

(** ** Ordering of query results *)

Section Order.
Context {A : Type} (key : A -> Z) (ascending : bool).

Lemma insert_by_perm : forall x l,
  Permutation (x :: l) (insert_by key ascending x l).
Proof.
  intros x l. induction l as [|y l IH]; simpl; [apply Permutation_refl|].
  destruct (if ascending then key y <? key x else key x <? key y).
  - eapply perm_trans; [apply perm_swap|]. apply perm_skip, IH.
  - apply Permutation_refl.
Qed.

Lemma order_perm : forall l, Permutation l (order key ascending l).
Proof.
  induction l as [|x l IH]; simpl; [apply perm_nil|].
  eapply perm_trans; [apply perm_skip, IH | apply insert_by_perm].
Qed.

Lemma in_order_trans : forall a b c,
  in_order key ascending a b -> in_order key ascending b c ->
  in_order key ascending a c.
Proof. unfold in_order. intros a b c. destruct ascending; lia. Qed.

Lemma insert_by_sorted : forall x l,
  StronglySorted (in_order key ascending) l ->
  StronglySorted (in_order key ascending) (insert_by key ascending x l).
Proof.
  intros x l H. induction H as [|y l Hs IH Hall]; simpl.
  - constructor; constructor.
  - destruct (if ascending then key y <? key x else key x <? key y) eqn:E.
    + constructor; [exact IH|].
      assert (Hyx : in_order key ascending y x).
      { unfold in_order. destruct ascending;
          apply Z.ltb_lt in E; lia. }
      rewrite Forall_forall in *. intros z Hz.
      apply (Permutation_in _ (Permutation_sym (insert_by_perm x l))) in Hz.
      destruct Hz as [<- | Hz]; [exact Hyx | apply Hall, Hz].
    + assert (Hxy : in_order key ascending x y).
      { unfold in_order. destruct ascending;
          apply Z.ltb_ge in E; lia. }
      constructor; [constructor; assumption|].
      constructor; [exact Hxy|].
      rewrite Forall_forall in *. intros z Hz.
      apply (in_order_trans x y z Hxy), Hall, Hz.
Qed.

Lemma order_sorted : forall l,
  StronglySorted (in_order key ascending) (order key ascending l).
Proof.
  induction l as [|x l IH]; simpl; [constructor | apply insert_by_sorted, IH].
Qed.

Lemma sorted_app_inv : forall l1 l2,
  StronglySorted (in_order key ascending) (l1 ++ l2)%list ->
  forall x y, In x l1 -> In y l2 -> in_order key ascending x y.
Proof.
  induction l1 as [|a l1 IH]; intros l2 H x y Hx Hy; [destruct Hx|].
  simpl in H. inversion H as [|? ? Hs Hall]; subst.
  destruct Hx as [<- | Hx].
  - rewrite Forall_forall in Hall. apply Hall, in_or_app. right. exact Hy.
  - apply (IH l2 Hs x y Hx Hy).
Qed.
End Order.

Lemma StronglySorted_map : forall (A B : Type) (f : A -> B)
  (R : B -> B -> Prop) (l : list A),
  StronglySorted (fun a b => R (f a) (f b)) l ->
  StronglySorted R (map f l).
Proof.
  intros A B f R l H. induction H as [|a l Hs IH Hall]; simpl; constructor.
  - exact IH.
  - rewrite Forall_forall in *. intros b Hb. apply in_map_iff in Hb.
    destruct Hb as [x [<- Hx]]. apply Hall, Hx.
Qed.

Lemma Status_eqb_eq : forall a b, Status_eqb a b = true <-> a = b.
Proof. intros [] []; simpl; split; congruence. Qed.

(** ** Listings *)

(** X16: The listing page shows the active auctions and only them, each once,
    soonest-ending first. *)
Theorem fetchAuctions_active_by_end_time : forall db ls,
  let shown := ls_auctions (fetchAuctions db None ls) in
  Forall (fun l => l_status l = active) shown
  /\ StronglySorted (fun a b => l_end_time a <= l_end_time b) shown
  /\ Permutation (map auctions.id (filter is_active (tbl_auctions db)))
                 (map l_id shown).
Proof.
  intros db ls. cbv zeta. unfold fetchAuctions. simpl.
  fold is_active.
  set (rows := order auctions.end_time true (filter is_active (tbl_auctions db))).
  assert (HP : Permutation (filter is_active (tbl_auctions db)) rows)
    by apply order_perm.
  split; [|split].
  - rewrite Forall_forall. intros l Hl. apply in_map_iff in Hl.
    destruct Hl as [a [<- Ha]]. simpl.
    apply (Permutation_in _ (Permutation_sym HP)) in Ha.
    apply filter_In in Ha. apply Status_eqb_eq, Ha.
  - apply StronglySorted_map. simpl.
    apply (order_sorted auctions.end_time true).
  - rewrite map_map. simpl. apply Permutation_map, HP.
Qed.

(** X17: The home page features at most three auctions, all active, and no
    active auction left out was created later than a featured one. *)
Theorem featured_are_newest_active : forall db hs,
  featuredAuctions (fst (fetchFeaturedAuctions db None hs))
  = map (fun a =>
           {| f_id := auctions.id a;
              f_start_price := auctions.start_price a;
              f_end_time := auctions.end_time a;
              f_product :=
                option_map (fun p => (products.title p, products.images p))
                  (join_product db (auctions.product_id a)) |})
      (featured_rows db)
  /\ (List.length (featured_rows db) <= 3)%nat
  /\ exists rest,
       Permutation (filter is_active (tbl_auctions db))
                   (featured_rows db ++ rest)%list
       /\ (forall a, In a (featured_rows db) -> auctions.status a = active)
       /\ (forall a b, In a (featured_rows db) -> In b rest ->
                       auctions.created_at b <= auctions.created_at a).
Proof.
  intros db hs. split; [reflexivity|]. unfold featured_rows, limit.
  set (sorted := order auctions.created_at false
                   (filter is_active (tbl_auctions db))).
  assert (HP : Permutation (filter is_active (tbl_auctions db)) sorted)
    by apply order_perm.
  split; [apply firstn_le_length|].
  exists (skipn 3 sorted). rewrite firstn_skipn. split; [exact HP|]. split.
  - intros a Ha.
    assert (Hin : In a sorted).
    { rewrite <- (firstn_skipn 3 sorted). apply in_or_app. left. exact Ha. }
    apply (Permutation_in _ (Permutation_sym HP)) in Hin. rename Hin into Ha'.
    clear Ha. rename Ha' into Ha.
    apply filter_In in Ha. apply Status_eqb_eq, Ha.
  - intros a b Ha Hb.
    pose proof (order_sorted auctions.created_at false
                  (filter is_active (tbl_auctions db))) as Hs.
    fold sorted in Hs. rewrite <- (firstn_skipn 3 sorted) in Hs.
    exact (sorted_app_inv auctions.created_at false _ _ Hs a b Ha Hb).
Qed.

(** ** What a submission does to the storage *)

Lemma insert_bid_appends : forall db fault b,
  tbl_products (fst (insert_bid db fault b)) = tbl_products db
  /\ tbl_auctions (fst (insert_bid db fault b)) = tbl_auctions db
  /\ tbl_profiles (fst (insert_bid db fault b)) = tbl_profiles db
  /\ ((snd (insert_bid db fault b) <> None
       /\ tbl_bids (fst (insert_bid db fault b)) = tbl_bids db)
      \/ (snd (insert_bid db fault b) = None
          /\ tbl_bids (fst (insert_bid db fault b)) = (tbl_bids db ++ [b])%list)).
Proof.
  intros db fault b. unfold insert_bid. destruct fault as [e|]; simpl.
  - repeat split. left. split; [discriminate | reflexivity].
  - destruct (bids_unique db && existsb (same_pair b) (tbl_bids db)); simpl;
      repeat split; [left | right]; split; try reflexivity. discriminate.
Qed.

(** X1: [handleBidSubmit] touches no table but [bids], never alters or
    removes a stored bid, and adds at most one row: on the success path
    exactly the row (auction, bidder, amount, now), whose amount exceeds
    the start price of the loaded auction; on every other path
    nothing. *)
Theorem handleBidSubmit_only_appends : forall user aid now cf ifl db st,
  let r := handleBidSubmit user aid now cf ifl db st in
  tbl_products (snd r) = tbl_products db
  /\ tbl_auctions (snd r) = tbl_auctions db
  /\ tbl_profiles (snd r) = tbl_profiles db
  /\ ((fst (fst r) <> ExitPlaced /\ tbl_bids (snd r) = tbl_bids db)
      \/ (exists uid a,
            user = Some uid /\ auction st = Some a
            /\ start_price a < bidAmount st
            /\ fst (fst r) = ExitPlaced
            /\ tbl_bids (snd r)
               = (tbl_bids db ++ [bid_row aid uid (bidAmount st) now])%list)).
Proof.
  intros user aid now cf ifl db st. cbv zeta.
  destruct user as [uid|].
  2:{ simpl. repeat split. left. split; [discriminate | reflexivity]. }
  rewrite handleBidSubmit_unfold.
  destruct (fst (own_bid_query db aid uid cf)) as [b|].
  { simpl. repeat split. left. split; [discriminate | reflexivity]. }
  destruct (auction st) as [a|] eqn:Ha.
  2:{ simpl. repeat split. left. split; [discriminate | reflexivity]. }
  destruct (bidAmount st <=? start_price a) eqn:Hle.
  { simpl. repeat split. left. split; [discriminate | reflexivity]. }
  apply Z.leb_gt in Hle.
  pose proof (insert_bid_appends db ifl (bid_row aid uid (bidAmount st) now))
    as (Hp & Hau & Hpr & Hb).
  fold (bid_row aid uid (bidAmount st) now).
  destruct (insert_bid db ifl (bid_row aid uid (bidAmount st) now))
    as [db' [e|]]; simpl in *.
  - repeat split; try assumption. left. split; [discriminate|].
    destruct Hb as [[_ Hb] | [Hb _]]; [exact Hb | discriminate Hb].
  - repeat split; try assumption. right. exists uid, a.
    repeat split; try assumption.
    destruct Hb as [[Hb _] | [_ Hb]]; [contradiction Hb; reflexivity | exact Hb].
Qed.

Lemma step_session_appends : forall db s,
  exists added,
    tbl_bids (fst (step_session db s)) = (tbl_bids db ++ added)%list
    /\ tbl_auctions (fst (step_session db s)) = tbl_auctions db.
Proof.
  intros db s. unfold step_session. destruct (s_phase s) as [|row|e].
  - destruct (s_user s) as [uid|];
      [|exists []; simpl; rewrite app_nil_r; split; reflexivity].
    destruct (handleBidSubmit_checks uid (s_id s) (s_now s)
                (own_bid_query db (s_id s) uid None) (s_state s))
      as [st1 [e|row]];
      exists []; simpl; rewrite app_nil_r; split; reflexivity.
  - pose proof (insert_bid_appends db None row) as (_ & Hau & _ & Hb).
    destruct (insert_bid db None row) as [db' err]. simpl in *.
    destruct (handleBidSubmit_after_insert err (s_state s)) as [st2 e]. simpl.
    destruct Hb as [[_ Hb] | [_ Hb]].
    + exists []. rewrite app_nil_r. split; assumption.
    + exists [row]. split; assumption.
  - exists []. simpl. rewrite app_nil_r. split; reflexivity.
Qed.

Lemma step_nth_appends : forall ss i db,
  exists added,
    tbl_bids (fst (step_nth i db ss)) = (tbl_bids db ++ added)%list
    /\ tbl_auctions (fst (step_nth i db ss)) = tbl_auctions db.
Proof.
  induction ss as [|s ss IH]; intros i db.
  - exists []. destruct i; simpl; rewrite app_nil_r; split; reflexivity.
  - destruct i as [|j]; simpl.
    + destruct (step_session_appends db s) as [added H].
      destruct (step_session db s) as [db' s']. exists added. exact H.
    + destruct (IH j db) as [added H].
      destruct (step_nth j db ss) as [db' ss']. exists added. exact H.
Qed.

(** X2: However several submissions interleave, the bids stored before are
    all still there afterwards, unchanged and in place: submissions only
    add rows behind them, and leave the auctions alone. *)
Theorem run_only_appends : forall schedule db ss,
  exists added,
    tbl_bids (fst (run schedule db ss)) = (tbl_bids db ++ added)%list
    /\ tbl_auctions (fst (run schedule db ss)) = tbl_auctions db.
Proof.
  induction schedule as [|i rest IH]; intros db ss; simpl.
  - exists []. rewrite app_nil_r. split; reflexivity.
  - destruct (step_nth_appends ss i db) as [added1 [H1 A1]].
    destruct (step_nth i db ss) as [db' ss']. simpl in *.
    destruct (IH db' ss') as [added2 [H2 A2]].
    exists (added1 ++ added2)%list.
    rewrite H2, H1, A2, A1, app_assoc. split; reflexivity.
Qed.

(** ** Insert, lookup and resubmission *)

Lemma no_bid_no_same_pair : forall db aid uid amount now,
  bids_of db aid uid = [] ->
  existsb (same_pair (bid_row aid uid amount now)) (tbl_bids db) = false.
Proof.
  intros db aid uid amount now H.
  destruct (existsb (same_pair (bid_row aid uid amount now)) (tbl_bids db))
    eqn:E; [|reflexivity].
  apply existsb_exists in E. destruct E as [c [Hin Hc]].
  assert (Hc' : In c (bids_of db aid uid)).
  { apply filter_In. split; [exact Hin|].
    unfold same_pair, eq_auction_id, eq_bidder_id in *. simpl in Hc.
    apply andb_true_iff in Hc. destruct Hc as [H1 H2].
    apply String.eqb_eq in H1, H2. rewrite <- H1, <- H2, !String.eqb_refl.
    reflexivity. }
  rewrite H in Hc'. destruct Hc'.
Qed.

Lemma own_bid_query_bids_of : forall db aid uid,
  own_bid_query db aid uid None = maybeSingle (bids_of db aid uid).
Proof. reflexivity. Qed.

(** The first bid of a bidder on an auction, with an amount above the
    start price and the storage answering: it is placed, and the table
    then holds exactly that one row for the pair. *)
Lemma first_bid_is_placed : forall uid aid now db st a,
  bids_of db aid uid = [] ->
  auction st = Some a ->
  start_price a < bidAmount st ->
  let r := handleBidSubmit (Some uid) aid now None None db st in
  fst (fst r) = ExitPlaced
  /\ bids_of (snd r) aid uid = [bid_row aid uid (bidAmount st) now].
Proof.
  intros uid aid now db st a Hnone Ha Hgt. cbv zeta.
  rewrite handleBidSubmit_unfold, own_bid_query_bids_of, Hnone, Ha. simpl.
  apply Z.leb_gt in Hgt. rewrite Hgt.
  fold (bid_row aid uid (bidAmount st) now). unfold insert_bid.
  rewrite (no_bid_no_same_pair db aid uid _ _ Hnone), andb_false_r. simpl.
  split; [reflexivity|].
  unfold bids_of in *. simpl. rewrite filter_app, Hnone. simpl.
  unfold eq_auction_id, eq_bidder_id. simpl. rewrite !String.eqb_refl.
  reflexivity.
Qed.

(** X3: Round trip: a bid placed by [handleBidSubmit] is what [checkUserBid]
    finds afterwards, on any page state. *)
Theorem placed_bid_is_found_by_lookup : forall uid aid now db st a st',
  aid <> "" ->
  bids_of db aid uid = [] ->
  auction st = Some a ->
  start_price a < bidAmount st ->
  let db' := snd (handleBidSubmit (Some uid) aid now None None db st) in
  checkUserBid (Some uid) (Some aid) db' None st'
  = (setUserBidAmount (Some (bidAmount st)) (setHasUserBid true st'), []).
Proof.
  intros uid aid now db st a st' Hid Hnone Ha Hgt. cbv zeta.
  destruct (first_bid_is_placed uid aid now db st a Hnone Ha Hgt) as [_ Hrow].
  unfold checkUserBid. rewrite (truthy_id_Some aid Hid).
  rewrite own_bid_query_bids_of, Hrow. reflexivity.
Qed.

Lemma placed_bid_is_found_by_lookup_witness :
  "a1" <> ""
  /\ bids_of (db_with false []) "a1" "X" = []
  /\ auction (setBidAmount 150 loaded) = Some auction_a1
  /\ start_price auction_a1 < bidAmount (setBidAmount 150 loaded)
  /\ checkUserBid (Some "X") (Some "a1")
       (snd (handleBidSubmit (Some "X") "a1" 600000 None None
               (db_with false []) (setBidAmount 150 loaded)))
       None initial_state
     = (setUserBidAmount (Some 150) (setHasUserBid true initial_state), []).
Proof.
  split; [discriminate|]. split; [reflexivity|]. split; [reflexivity|].
  split; [reflexivity|].
  apply (placed_bid_is_found_by_lookup "X" "a1" 600000 (db_with false [])
           (setBidAmount 150 loaded) auction_a1 initial_state);
    [discriminate | reflexivity | reflexivity | reflexivity].
Defined.



(** X5: Once a bidder holds two or more bids on an auction the lookup reads
    as no bid at all: [maybeSingle] answers several rows with PGRST116,
    which [checkUserBid] lets pass, so the page says the user has not bid,
    and [handleBidSubmit] never reports the prior bid. *)
Theorem duplicate_bids_read_as_no_bid :
  forall uid aid db b1 b2 rest st now ifl,
    aid <> "" ->
    bids_of db aid uid = b1 :: b2 :: rest ->
    checkUserBid (Some uid) (Some aid) db None st = (setHasUserBid false st, [])
    /\ fst (fst (handleBidSubmit (Some uid) aid now None ifl db st))
       <> ExitAlreadyBid.
Proof.
  intros uid aid db b1 b2 rest st now ifl Hid Hrows. split.
  - unfold checkUserBid. rewrite (truthy_id_Some aid Hid).
    rewrite own_bid_query_bids_of, Hrows. reflexivity.
  - rewrite handleBidSubmit_unfold, own_bid_query_bids_of, Hrows. simpl.
    destruct (match auction st with
              | Some a => bidAmount st <=? start_price a
              | None => true
              end); [discriminate|].
    destruct (insert_bid db ifl _) as [db' [e|]]; discriminate.
Qed.

Lemma duplicate_bids_read_as_no_bid_witness :
  let db := db_with false [bid "X" 150 600000; bid "X" 170 600001] in
  "a1" <> ""
  /\ bids_of db "a1" "X" = [bid "X" 150 600000; bid "X" 170 600001]
  /\ checkUserBid (Some "X") (Some "a1") db None loaded
     = (setHasUserBid false loaded, [])
  /\ fst (fst (handleBidSubmit (Some "X") "a1" 700000 None None db
                 (setBidAmount 190 loaded)))
     <> ExitAlreadyBid.
Proof.
  cbv zeta. split; [discriminate|]. split; [reflexivity|].
  split.
  - apply (duplicate_bids_read_as_no_bid "X" "a1"
             (db_with false [bid "X" 150 600000; bid "X" 170 600001])
             (bid "X" 150 600000) (bid "X" 170 600001) [] loaded 0 None);
      [discriminate | reflexivity].
  - apply (duplicate_bids_read_as_no_bid "X" "a1"
             (db_with false [bid "X" 150 600000; bid "X" 170 600001])
             (bid "X" 150 600000) (bid "X" 170 600001) []
             (setBidAmount 190 loaded) 700000 None);
      [discriminate | reflexivity].
Defined.

(** ** One bid per pair, served one at a time *)

Lemma append_keeps_one_bid_per_pair : forall db b,
  one_bid_per_pair db ->
  bids_of db (bids.auction_id b) (bids.bidder_id b) = [] ->
  forall aid uid,
    (List.length
       (filter (fun c => eq_auction_id aid c && eq_bidder_id uid c)
          (tbl_bids db ++ [b])%list) <= 1)%nat.
Proof.
  intros db b Hinv Hnone aid uid. rewrite filter_app, length_app. simpl.
  destruct (eq_auction_id aid b && eq_bidder_id uid b) eqn:Hb; simpl.
  - unfold eq_auction_id, eq_bidder_id in Hb. apply andb_true_iff in Hb.
    destruct Hb as [H1 H2]. apply String.eqb_eq in H1, H2. subst aid uid.
    unfold bids_of in Hnone. rewrite Hnone. simpl. lia.
  - specialize (Hinv aid uid). unfold bids_of in Hinv. lia.
Qed.

(** X6: Without any constraint in the storage: as long as each submission is
    served from pre-check to insert without another one in between, and
    the pre-check itself is answered, [handleBidSubmit] keeps at most one
    bid per (auction, bidder). *)
Theorem uninterrupted_submission_keeps_one_bid_per_pair :
  forall user aid now ifl db st,
    one_bid_per_pair db ->
    one_bid_per_pair (snd (handleBidSubmit user aid now None ifl db st)).
Proof.
  intros user aid now ifl db st Hinv.
  destruct user as [uid|]; [|exact Hinv].
  rewrite handleBidSubmit_unfold, own_bid_query_bids_of.
  pose proof (Hinv aid uid) as Hlen.
  destruct (bids_of db aid uid) as [|b1 [|b2 rest]] eqn:Hrows; simpl in Hlen;
    [| exact Hinv | lia].
  simpl.
  destruct (match auction st with
            | Some a => bidAmount st <=? start_price a
            | None => true
            end); [exact Hinv|].
  unfold insert_bid. destruct ifl as [e|]; [exact Hinv|].
  destruct (bids_unique db && existsb _ (tbl_bids db)); [exact Hinv|].
  simpl. intros aid' uid'. unfold bids_of. simpl.
  apply append_keeps_one_bid_per_pair; [exact Hinv | exact Hrows].
Qed.

Lemma uninterrupted_submission_witness :
  one_bid_per_pair (db_with false [bid "X" 150 600000])
  /\ one_bid_per_pair
       (snd (handleBidSubmit (Some "Y") "a1" 700000 None None
               (db_with false [bid "X" 150 600000])
               (setBidAmount 200 loaded))).
Proof.
  assert (H : one_bid_per_pair (db_with false [bid "X" 150 600000])).
  { intros aid uid. unfold bids_of. simpl.
    destruct (eq_auction_id aid (bid "X" 150 600000)
              && eq_bidder_id uid (bid "X" 150 600000)); simpl; lia. }
  split; [exact H|].
  apply (uninterrupted_submission_keeps_one_bid_per_pair (Some "Y") "a1"
           700000 None (db_with false [bid "X" 150 600000])
           (setBidAmount 200 loaded) H).
Defined.

Lemma unique_table_keeps_one_bid_per_pair_witness :
  let s1 := submit (Some "X") "a1" 600000 (setBidAmount 150 loaded) in
  let s2 := submit (Some "X") "a1" 600001 (setBidAmount 150 loaded) in
  bids_unique (db_with true []) = true
  /\ one_bid_per_pair (db_with true [])
  /\ one_bid_per_pair
       (fst (run [0; 1; 0; 1]%nat (db_with true []) [s1; s2])).
Proof.
  cbv zeta.
  assert (H : one_bid_per_pair (db_with true [])).
  { intros aid uid. unfold bids_of. simpl. lia. }
  split; [reflexivity|]. split; [exact H|].
  apply (unique_table_keeps_one_bid_per_pair [0; 1; 0; 1]%nat
           (db_with true []) _ eq_refl H).
Defined.

(** ** Loading the page *)

Lemma low_bid_is_refused : forall user aid now cf ifl db st a,
  auction st = Some a ->
  bidAmount st <= start_price a ->
  fst (fst (handleBidSubmit user aid now cf ifl db st)) <> ExitPlaced
  /\ snd (handleBidSubmit user aid now cf ifl db st) = db.
Proof.
  intros user aid now cf ifl db st a Ha Hle. apply Z.leb_le in Hle.
  destruct user as [uid|]; [|split; [discriminate | reflexivity]].
  rewrite handleBidSubmit_unfold.
  destruct (fst (own_bid_query db aid uid cf));
    [split; [discriminate | reflexivity]|].
  rewrite Ha, Hle. split; [discriminate | reflexivity].
Qed.

(** X8: The bid input is preset to the start price when the auction loads, so
    a form submitted untouched never places a bid. *)
Theorem untouched_form_places_no_bid :
  forall aid db st a p user now cf ifl db',
    auction_query db aid None = (Some (a, Some p), None) ->
    let st' := fetchAuctionDetails aid db None st in
    let r := handleBidSubmit user aid now cf ifl db' st' in
    bidAmount st' = auctions.start_price a
    /\ option_map start_price (auction st') = Some (auctions.start_price a)
    /\ fst (fst r) <> ExitPlaced
    /\ snd r = db'.
Proof.
  intros aid db st a p user now cf ifl db' Hq. cbv zeta.
  assert (Hst : fetchAuctionDetails aid db None st
                = setLoading false
                    (setBidAmount (auctions.start_price a)
                       (setAuction
                          (auction (fetchAuctionDetails aid db None st)) st))).
  { unfold fetchAuctionDetails. rewrite Hq. reflexivity. }
  assert (Hau : exists x, auction (fetchAuctionDetails aid db None st) = Some x
                          /\ start_price x = auctions.start_price a).
  { unfold fetchAuctionDetails. rewrite Hq. simpl. eexists. split; reflexivity. }
  destruct Hau as [x [Hx Hsp]].
  assert (Hb : bidAmount (fetchAuctionDetails aid db None st)
               = auctions.start_price a).
  { rewrite Hst. reflexivity. }
  split; [exact Hb|]. split; [rewrite Hx; simpl; rewrite Hsp; reflexivity|].
  pose proof (low_bid_is_refused user aid now cf ifl db'
                (fetchAuctionDetails aid db None st) x Hx) as H.
  apply H. rewrite Hb, Hsp. lia.
Qed.

Lemma untouched_form_places_no_bid_witness :
  auction_query (db_with false []) "a1" None = (Some (auction_row, Some lot), None)
  /\ bidAmount loaded = auctions.start_price auction_row
  /\ option_map start_price (auction loaded)
     = Some (auctions.start_price auction_row)
  /\ fst (fst (handleBidSubmit (Some "X") "a1" 600000 None None
                 (db_with false []) loaded))
     <> ExitPlaced
  /\ snd (handleBidSubmit (Some "X") "a1" 600000 None None
            (db_with false []) loaded)
     = db_with false [].
Proof.
  split; [reflexivity|].
  apply (untouched_form_places_no_bid "a1" (db_with false []) initial_state
           auction_row lot (Some "X") 600000 None None (db_with false [])).
  reflexivity.
Defined.

Lemma filter_none : forall (A : Type) (f : A -> bool) (l : list A),
  (forall x, In x l -> f x = false) -> filter f l = [].
Proof.
  intros A f l H. induction l as [|x l IH]; simpl; [reflexivity|].
  rewrite (H x (or_introl eq_refl)). apply IH.
  intros y Hy. apply H. right. exact Hy.
Qed.

(** X9: An id that no auction carries: the page leaves the spinner, keeps
    whatever auction it held, and shows the fetch error in place of the
    page. *)
Theorem unknown_auction_shows_error : forall aid db st now,
  (forall a, In a (tbl_auctions db) -> auctions.id a <> aid) ->
  let st' := fetchAuctionDetails aid db None st in
  auction st' = auction st
  /\ loading st' = false
  /\ render st' now = ErrorText "Failed to fetch auction details".
Proof.
  intros aid db st now Hno. cbv zeta.
  unfold fetchAuctionDetails, auction_query.
  rewrite (filter_none _ (fun a => String.eqb (auctions.id a) aid)).
  - repeat split.
  - intros a Ha. apply String.eqb_neq, Hno, Ha.
Qed.

Lemma unknown_auction_shows_error_witness :
  (forall a, In a (tbl_auctions (db_with false [])) -> auctions.id a <> "a2")
  /\ render (fetchAuctionDetails "a2" (db_with false []) None initial_state) 0
     = ErrorText "Failed to fetch auction details".
Proof.
  assert (H : forall a, In a (tbl_auctions (db_with false [])) ->
                        auctions.id a <> "a2").
  { intros a [<- | []]. discriminate. }
  split; [exact H|].
  exact (proj2 (proj2 (unknown_auction_shows_error "a2" (db_with false [])
                         initial_state 0 H))).
Defined.

Lemma fetchAuctionDetails_keeps_winner : forall aid db fault st,
  winner (fetchAuctionDetails aid db fault st) = winner st.
Proof.
  intros aid db fault st. unfold fetchAuctionDetails.
  destruct (auction_query db aid fault) as [data [e|]]; [reflexivity|].
  destruct data as [[a [p|]]|]; reflexivity.
Qed.

Lemma checkUserBid_keeps_winner : forall user oid db fault st,
  winner (fst (checkUserBid user oid db fault st)) = winner st.
Proof.
  intros user oid db fault st. unfold checkUserBid.
  destruct user as [uid|]; [|reflexivity].
  destruct (truthy_id oid) as [aid|]; [|reflexivity].
  destruct (own_bid_query db aid uid fault) as [[d|] [e|]];
    try destruct (negb (String.eqb (code e) "PGRST116")); reflexivity.
Qed.

(** X10: On a freshly mounted page the effect on [id] runs with the [isEnded]
    of a render that has no auction yet, so the winner lookup is not
    started: whatever the storage holds and whatever the time, the winner
    stays unset and the page, once loaded, shows no winner, ended auction
    or not. *)
Theorem fresh_mount_shows_no_winner :
  forall user oid now db f_details f_own f_winner later,
    let st := fst (id_effect user oid now db f_details f_own f_winner
                     initial_state) in
    winner st = None
    /\ (forall v, render st later = Detail v -> v_winner v = None).
Proof.
  intros user oid now db fd fo fw later. cbv zeta.
  assert (Hw : winner (fst (id_effect user oid now db fd fo fw initial_state))
               = None).
  { unfold id_effect. destruct (truthy_id oid) as [aid|]; [|reflexivity].
    simpl isEnded. cbv iota.
    pose proof (checkUserBid_keeps_winner user oid db fo
                  (fetchAuctionDetails aid db fd initial_state)) as H.
    destruct (checkUserBid user oid db fo
                (fetchAuctionDetails aid db fd initial_state)) as [st2 c2].
    simpl in *. rewrite H. apply fetchAuctionDetails_keeps_winner. }
  split; [exact Hw|].
  set (st := fst (id_effect user oid now db fd fo fw initial_state)) in *.
  intros v Hv. unfold render in Hv.
  destruct (loading st); [discriminate|].
  destruct (truthy_error (error st)); [discriminate|].
  destruct (auction st) as [a|]; [|discriminate].
  injection Hv as <-. cbn [v_winner]. rewrite Hw.
  destruct (end_time a <? later); reflexivity.
Qed.

(** X11: The three fetches of the effect write different state variables:
    whichever answers first, the page ends in the same state. *)
Theorem fetches_commute : forall user oid aid db f_details f_own f_winner st,
  fst (checkUserBid user oid db f_own (fetchAuctionDetails aid db f_details st))
  = fetchAuctionDetails aid db f_details
      (fst (checkUserBid user oid db f_own st))
  /\ fst (fetchWinnerDetails oid db f_winner
            (fetchAuctionDetails aid db f_details st))
     = fetchAuctionDetails aid db f_details
         (fst (fetchWinnerDetails oid db f_winner st))
  /\ fst (fetchWinnerDetails oid db f_winner
            (fst (checkUserBid user oid db f_own st)))
     = fst (checkUserBid user oid db f_own
              (fst (fetchWinnerDetails oid db f_winner st))).
Proof.
  intros user oid aid db fd fo fw st.
  unfold checkUserBid, fetchWinnerDetails, fetchAuctionDetails.
  destruct (auction_query db aid fd) as [ad [ae|]];
    [| destruct ad as [[a [p|]]|]];
    (destruct (truthy_id oid) as [x|];
     [ destruct (winner_query db x fw) as [wd [we|]];
       [| destruct wd as [[amount [bidder|]]|]];
       (destruct user as [uid|];
        [ destruct (own_bid_query db x uid fo) as [[d|] [e|]];
          try destruct (negb (String.eqb (code e) "PGRST116"));
          repeat split
        | repeat split ])
     | destruct user; repeat split ]).
Qed.

(** X12: When the page already holds an auction that has ended and the route
    changes to another id, the effect runs with the [isEnded] of the old
    auction: the winner lookup is started for the new id and stores its
    highest bid, whatever the end time of the auction being loaded. *)
Theorem stale_isEnded_starts_winner_lookup :
  forall user aid now db f_details f_own st old amount bidder,
    aid <> "" ->
    auction st = Some old ->
    end_time old < now ->
    winner_query db aid None = (Some (amount, Some bidder), None) ->
    winner (fst (id_effect user (Some aid) now db f_details f_own None st))
    = Some {| user_name := profiles.full_name bidder; bid_amount := amount |}.
Proof.
  intros user aid now db fd fo st old amount bidder Hid Hold Hlt Hq.
  unfold id_effect. rewrite (truthy_id_Some aid Hid), Hold. simpl isEnded.
  apply Z.ltb_lt in Hlt. rewrite Hlt.
  destruct (checkUserBid user (Some aid) db fo
              (fetchAuctionDetails aid db fd st)) as [st2 c2].
  unfold fetchWinnerDetails. rewrite (truthy_id_Some aid Hid), Hq.
  reflexivity.
Qed.

Lemma stale_isEnded_starts_winner_lookup_witness :
  let old := reschedule 1000 ended auction_a1 in
  "a1" <> ""
  /\ end_time old < 2000
  /\ isEnded (auction (fetchAuctionDetails "a1" (db_with false scenario_C)
                         None initial_state)) 2000 = false
  /\ winner (fst (id_effect (Some "X") (Some "a1") 2000
                    (db_with false scenario_C) None None None
                    (setAuction (Some old) loaded)))
     = Some {| user_name := "Yvonne"; bid_amount := 200 |}.
Proof.
  cbv zeta. split; [discriminate|]. split; [reflexivity|].
  split; [reflexivity|].
  apply (stale_isEnded_starts_winner_lookup (Some "X") "a1" 2000
           (db_with false scenario_C) None None
           (setAuction (Some (reschedule 1000 ended auction_a1)) loaded)
           (reschedule 1000 ended auction_a1) 200
           {| profiles.id := "Y"; profiles.full_name := "Yvonne" |});
    [discriminate | reflexivity | reflexivity | reflexivity].
Defined.

(** ** What the page shows after a submission *)

(** X13: After a bid has been placed, and for as long as the auction is not
    ended, the page shows the own-bid panel with the amount just placed
    and no bid form. *)
Theorem placed_bid_shows_own_bid_panel :
  forall user aid now cf ifl db st a later,
    loading st = false ->
    auction st = Some a ->
    isEnded (Some a) later = false ->
    let r := handleBidSubmit user aid now cf ifl db st in
    fst (fst r) = ExitPlaced ->
    render (snd (fst r)) later
    = Detail {| v_base_price := start_price a;
                v_ended := false;
                v_winner := None;
                v_bid_form := false;
                v_own_bid := Some (Some (bidAmount st)) |}.
Proof.
  intros user aid now cf ifl db st a later Hl Ha Hlive. cbv zeta.
  destruct user as [uid|]; [|discriminate].
  rewrite handleBidSubmit_unfold.
  destruct (fst (own_bid_query db aid uid cf)); [discriminate|].
  rewrite Ha. destruct (bidAmount st <=? start_price a); [discriminate|].
  destruct (insert_bid db ifl _) as [db' [e|]]; [discriminate|].
  intros _. unfold render. simpl. rewrite Hl, Ha. simpl in Hlive |- *.
  rewrite Hlive. reflexivity.
Qed.

Lemma placed_bid_shows_own_bid_panel_witness :
  loading loaded = false
  /\ isEnded (Some auction_a1) 700000 = false
  /\ render (snd (fst (handleBidSubmit (Some "X") "a1" 600000 None None
                        (db_with false []) (setBidAmount 150 loaded))))
       700000
     = Detail {| v_base_price := 100; v_ended := false; v_winner := None;
                 v_bid_form := false; v_own_bid := Some (Some 150) |}.
Proof.
  split; [reflexivity|]. split; [reflexivity|].
  apply (placed_bid_shows_own_bid_panel (Some "X") "a1" 600000 None None
           (db_with false []) (setBidAmount 150 loaded) auction_a1 700000);
    reflexivity.
Defined.

(** X14: A submission refused by one of the handler's own checks sets the
    error variable, and the page then renders that message in place of
    everything else, the bid form included. *)
Theorem refused_bid_replaces_page_by_error :
  forall user aid now cf ifl db st later,
    loading st = false ->
    let r := handleBidSubmit user aid now cf ifl db st in
    fst (fst r) = ExitSignIn \/ fst (fst r) = ExitAlreadyBid
    \/ fst (fst r) = ExitBasePrice ->
    exists msg,
      error (snd (fst r)) = Some msg
      /\ render (snd (fst r)) later = ErrorText msg.
Proof.
  intros user aid now cf ifl db st later Hl. cbv zeta.
  destruct user as [uid|].
  - rewrite handleBidSubmit_unfold.
    destruct (fst (own_bid_query db aid uid cf)) as [b|].
    + intros _. eexists. split; [reflexivity|].
      unfold render. simpl. rewrite Hl. reflexivity.
    + destruct (match auction st with
                | Some a => bidAmount st <=? start_price a
                | None => true
                end).
      * intros _. eexists. split; [reflexivity|].
        unfold render. simpl. rewrite Hl. reflexivity.
      * destruct (insert_bid db ifl _) as [db' [e|]]; simpl;
          intros [H | [H | H]]; discriminate H.
  - intros _. eexists. split; [reflexivity|].
    unfold render. simpl. rewrite Hl. reflexivity.
Qed.

Lemma refused_bid_replaces_page_by_error_witness :
  loading loaded = false
  /\ fst (fst (handleBidSubmit (Some "X") "a1" 600000 None None
                 (db_with false []) (setBidAmount 80 loaded)))
     = ExitBasePrice
  /\ exists msg,
       error (snd (fst (handleBidSubmit (Some "X") "a1" 600000 None None
                          (db_with false []) (setBidAmount 80 loaded))))
       = Some msg
       /\ render (snd (fst (handleBidSubmit (Some "X") "a1" 600000 None None
                              (db_with false []) (setBidAmount 80 loaded))))
            700000
          = ErrorText msg.
Proof.
  split; [reflexivity|]. split; [reflexivity|].
  apply (refused_bid_replaces_page_by_error (Some "X") "a1" 600000 None None
           (db_with false []) (setBidAmount 80 loaded) 700000);
    [reflexivity | right; right; reflexivity].
Defined.

Lemma handleBidSubmit_ignores_liveness_witness :
  let st := setBidAmount 150 loaded in
  let r := handleBidSubmit (Some "X") "a1" 600000 None None
             (db_with false []) st in
  let r' := handleBidSubmit (Some "X") "a1" 600000 None None
              (db_with false [])
              (setAuction (Some (reschedule 1000 cancelled auction_a1)) st) in
  auction st = Some auction_a1
  /\ fst (fst r') = fst (fst r) /\ snd r' = snd r.
Proof.
  cbv zeta. split; [reflexivity|].
  apply (handleBidSubmit_ignores_liveness (Some "X") "a1" 600000 None None
           (db_with false []) (setBidAmount 150 loaded) auction_a1
           1000 cancelled).
  reflexivity.
Defined.

(** ** The winner lookup on an auction that is still running *)

(** C2, the code at the failing input: the page holds auction a0, ended,
    and the route changes to a1, which is active and not ended.  The
    effect takes [isEnded] from the render that still holds a0 and starts
    the winner lookup for a1, which asks for no status and no end time.
    On two storages that agree for the actor X and differ in a bid of Y,
    X's page ends in two different states: the winner variable holds the
    current maximum of the running auction, with Y's name and amount. *)
Theorem stale_effect_stores_running_maximum :
  let db1 := db_with false [bid "X" 150 600000] in
  let db2 := db_with false [bid "X" 150 600000; bid "Y" 999 700000] in
  let page db := fst (id_effect (Some "X") (Some "a1") 2000 db
                        None None None page_of_a0) in
  agree_for (Some "X") db1 db2
  /\ isEnded (auction page_of_a0) 2000 = true
  /\ auction (page db2) = Some auction_a1
  /\ status auction_a1 = active
  /\ isEnded (auction (page db2)) 2000 = false
  /\ winner (page db1) = Some {| user_name := "Xavier"; bid_amount := 150 |}
  /\ winner (page db2) = Some {| user_name := "Yvonne"; bid_amount := 999 |}
  /\ page db1 <> page db2.
Proof.
  cbv zeta. split.
  { repeat split. intros uid Hu. inversion Hu. reflexivity. }
  repeat split. vm_compute. discriminate.
Qed.
